(** * A DNS query builder (part_1.ipynb), embedded and verified

    The notebook defines two dataclasses ([DNSHeader], [DNSQuestion]) and
    four functions: [header_to_bytes], [question_to_bytes],
    [encode_dns_name] and [build_query].  They are translated below, on top
    of a model of the fragment of the Python runtime they call:
    [str.encode("ascii")], [bytes.split], [bytes([n])], [struct.pack] with
    the network-order [H] code, [bytes.hex] and [random.randint]. *)

From Stdlib Require Import ZArith NArith List String Ascii Strings.Byte Bool Lia.
Import ListNotations.

Local Open Scope Z_scope.

(** ** The Python fragment *)

Module Py.

(** The exceptions the program can raise. *)
Inductive exn : Type :=
| UnicodeEncodeError   (* str.encode("ascii") on a code point above 127 *)
| ValueError           (* bytes([n]) with n outside range(0, 256) *)
| StructError.         (* struct.pack: value outside the code's range *)

(** A call either returns a value or raises. *)
Inductive result (A : Type) : Type :=
| Ok (a : A)
| Raise (e : exn).
Arguments Ok {A} a.
Arguments Raise {A} e.

Definition bind {A B} (c : result A) (k : A -> result B) : result B :=
  match c with
  | Ok a => k a
  | Raise e => Raise e
  end.

(** [bytes]: a sequence of octets.  [str]: a sequence of code points. *)
Definition bytes : Type := list byte.
Definition str : Type := list N.

(** A string literal of the notebook, as code points. *)
Definition lit (s : string) : str :=
  List.map N_of_ascii (list_ascii_of_string s).

(** [len(x)] is a Python int. *)
Definition len {A} (l : list A) : Z := Z.of_nat (List.length l).

(** The octet of an integer known to lie in range(0, 256). *)
Definition octet (n : Z) : byte :=
  match Byte.of_N (Z.to_N n) with
  | Some b => b
  | None => x00
  end.

(** [s.encode("ascii")]: every code point must be below 128. *)
Fixpoint encode_ascii (s : str) : result bytes :=
  match s with
  | [] => Ok []
  | c :: s' =>
      if (c <? 128)%N
      then bind (encode_ascii s') (fun rest => Ok (octet (Z.of_N c) :: rest))
      else Raise UnicodeEncodeError
  end.

(** [s.split(sep)] for a one-octet separator: never an empty list, the
    empty input gives one empty part. *)
Fixpoint split (sep : byte) (s : bytes) : list bytes :=
  match s with
  | [] => [[]]
  | c :: s' =>
      if Byte.eqb c sep then [] :: split sep s'
      else match split sep s' with
           | part :: parts => (c :: part) :: parts
           | [] => [[c]]
           end
  end.

(** [bytes(ints)]: every item must be in range(0, 256). *)
Fixpoint bytes_of_ints (ints : list Z) : result bytes :=
  match ints with
  | [] => Ok []
  | n :: ints' =>
      if (0 <=? n) && (n <? 256)
      then bind (bytes_of_ints ints') (fun rest => Ok (octet n :: rest))
      else Raise ValueError
  end.

(** One [H] item of [struct.pack] in network order: an unsigned 16-bit
    integer, most significant octet first; out of range is an error. *)
Definition pack_H (v : Z) : result bytes :=
  if (0 <=? v) && (v <=? 65535)
  then Ok [octet (v / 256); octet (v mod 256)]
  else Raise StructError.

Fixpoint pack_items (codes : list ascii) (args : list Z) : result bytes :=
  match codes, args with
  | [], [] => Ok []
  | ("H"%char :: codes'), (v :: args') =>
      bind (pack_H v) (fun b =>
      bind (pack_items codes' args') (fun rest => Ok (b ++ rest)))
  | _, _ => Raise StructError
  end.

(** [struct.pack(fmt, *args)] for the formats of the program: ["!"]
    followed by [H] codes, one argument per code.  Anything else is
    answered with [struct.error]; the program never asks for it. *)
Definition struct_pack (fmt : string) (args : list Z) : result bytes :=
  match fmt with
  | String "!"%char codes => pack_items (list_ascii_of_string codes) args
  | _ => Raise StructError
  end.

(** [b.hex()]: two lowercase hexadecimal digits per octet. *)
Definition hex_digit (n : N) : ascii :=
  if (n <? 10)%N then ascii_of_N (48 + n) else ascii_of_N (87 + n).

Fixpoint hex (b : bytes) : string :=
  match b with
  | [] => EmptyString
  | x :: b' =>
      String (hex_digit (Byte.to_N x / 16))
        (String (hex_digit (Byte.to_N x mod 16)) (hex b'))
  end.

(** The [random] module: a generator state and [randint(a, b)], which
    returns an integer of the closed interval [[a, b]] and the next
    state.  The generator itself is left open. *)
Record RandomSource : Type := {
  rng_state : Type;
  randint : Z -> Z -> rng_state -> Z * rng_state;
  randint_range : forall a b s, a <= b -> a <= fst (randint a b s) <= b
}.

(** A computation that uses the generator and may raise.  The state
    survives an exception, as the module-level generator does. *)
Definition run (S A : Type) : Type := S -> result A * S.

Definition lift {S A} (c : result A) : run S A := fun s => (c, s).

Definition draw (R : RandomSource) (a b : Z) : run (rng_state R) Z :=
  fun s => let (v, s') := randint R a b s in (Ok v, s').

Definition rbind {S A B} (c : run S A) (k : A -> run S B) : run S B :=
  fun s =>
    match c s with
    | (Ok a, s') => k a s'
    | (Raise e, s') => (Raise e, s')
    end.

End Py.

Import Py.

Notation "x <- c ;; k" := (bind c (fun x => k))
  (at level 61, c at next level, right associativity).
Notation "x <~ c ;; k" := (rbind c (fun x => k))
  (at level 61, c at next level, right associativity).

(** A concrete generator: a linear congruential one, reduced into the
    requested interval. *)
Definition lcg_randint (a b : Z) (s : Z) : Z * Z :=
  (a + s mod (b - a + 1), (1103515245 * s + 12345) mod 2147483648).

Definition lcg : RandomSource.
Proof.
  refine {| rng_state := Z; randint := lcg_randint; randint_range := _ |}.
  intros a b s Hab. unfold lcg_randint. cbn [fst].
  pose proof (Z.mod_pos_bound s (b - a + 1) ltac:(lia)). lia.
Defined.

(** ** The program *)

(** [@dataclass class DNSHeader]; the four counts default to 0. *)
Record DNSHeader : Type := mkDNSHeader {
  id : Z;
  flags : Z;
  num_questions : Z;
  num_answers : Z;
  num_authorities : Z;
  num_additionals : Z
}.

(** [@dataclass class DNSQuestion]. *)
Record DNSQuestion : Type := mkDNSQuestion {
  name : bytes;
  type_ : Z;
  class_ : Z
}.

(** [dataclasses.astuple(header)]: the fields in declaration order. *)
Definition astuple (header : DNSHeader) : list Z :=
  [id header; flags header; num_questions header;
   num_answers header; num_authorities header; num_additionals header].

Definition header_to_bytes (header : DNSHeader) : result bytes :=
  let fields := astuple header in
  struct_pack "!HHHHHH" fields.

Definition question_to_bytes (question : DNSQuestion) : result bytes :=
  packed <- struct_pack "!HH" [type_ question; class_ question] ;;
  Ok (name question ++ packed).

(** The body of the [for] loop of [encode_dns_name], over the parts still to
    come, with the accumulator [encoded]. *)
Fixpoint encode_parts (encoded : bytes) (parts : list bytes) : result bytes :=
  match parts with
  | [] => Ok encoded
  | part :: parts' =>
      prefix <- bytes_of_ints [len part] ;;
      encode_parts (encoded ++ prefix ++ part) parts'
  end.

Definition encode_dns_name (domain_name : str) : result bytes :=
  raw <- encode_ascii domain_name ;;
  encoded <- encode_parts [] (split "."%byte raw) ;;
  Ok (encoded ++ [x00]).

Definition TYPE_A : Z := 1.
Definition CLASS_IN : Z := 1.

Definition build_query (R : RandomSource) (domain_name : str) (record_type : Z)
  : run (rng_state R) bytes :=
  name <~ lift (encode_dns_name domain_name) ;;
  id <~ draw R 0 65535 ;;
  let RECURSION_DESIRED := Z.shiftl 1 8 in
  let header := mkDNSHeader id RECURSION_DESIRED 1 0 0 0 in
  let question := mkDNSQuestion name record_type CLASS_IN in
  lift (h <- header_to_bytes header ;;
        q <- question_to_bytes question ;;
        Ok (h ++ q)).

(** ** Reading an encoded name back

    Follows the spec's words, not the source (the notebook has no decoder):
    repeatedly read a length prefix and that many octets; the zero length
    prefix is the terminator.  The result is the labels read and the octets
    left after the terminator.  [fuel] bounds the number of prefixes read;
    the length of the input is always enough. *)
Fixpoint read_labels (fuel : nat) (b : bytes) : option (list bytes * bytes) :=
  match fuel with
  | O => None
  | S fuel' =>
      match b with
      | [] => None
      | n :: rest =>
          match N.to_nat (Byte.to_N n) with
          | O => Some ([], rest)
          | S _ as k =>
              if (List.length rest <? k)%nat then None
              else match read_labels fuel' (skipn k rest) with
                   | Some (labels, tail) => Some (firstn k rest :: labels, tail)
                   | None => None
                   end
          end
      end
  end.

Definition decode_dns_name (b : bytes) : option (list bytes * bytes) :=
  read_labels (List.length b) b.

(** The wire form of a list of parts: each part behind its length octet. *)
Definition framed (parts : list bytes) : bytes :=
  flat_map (fun part => octet (len part) :: part) parts.

(** A 16-bit value and the two octets that carry it, high octet first. *)
Definition u16 (v : Z) : Prop := 0 <= v <= 65535.

Definition be16 (hi lo : byte) : Z :=
  Z.of_N (Byte.to_N hi) * 256 + Z.of_N (Byte.to_N lo).

(** [sep.join(parts)] for a one-octet separator; the notebook does not call
    it, it serves to state that nothing is lost by [split]. *)
Definition join (sep : byte) (parts : list bytes) : bytes :=
  match parts with
  | [] => []
  | part :: parts' => part ++ flat_map (fun p => sep :: p) parts'
  end.

(** * Properties *)

(** ** Octets and the packing primitives *)

Section Primitives.

Lemma octet_to_N n : 0 <= n < 256 -> Byte.to_N (octet n) = Z.to_N n.
Proof.
  intros Hn. unfold octet.
  destruct (Byte.of_N (Z.to_N n)) as [b|] eqn:E.
  - now apply Byte.to_of_N.
  - apply Byte.of_N_None_iff in E. lia.
Qed.

Lemma octet_zero : octet 0 = x00.
Proof. reflexivity. Qed.

Lemma octet_len_nat (part : bytes) :
  (List.length part <= 255)%nat ->
  N.to_nat (Byte.to_N (octet (len part))) = List.length part.
Proof.
  intros H. unfold len. rewrite octet_to_N by lia. lia.
Qed.

Lemma bytes_of_ints_one n :
  0 <= n < 256 -> bytes_of_ints [n] = Ok [octet n].
Proof.
  intros Hn. cbn [bytes_of_ints bind].
  replace ((0 <=? n) && (n <? 256)) with true; [reflexivity|].
  symmetry. apply andb_true_iff. split; [apply Z.leb_le | apply Z.ltb_lt]; lia.
Qed.

Lemma bytes_of_ints_one_raise n :
  256 <= n -> bytes_of_ints [n] = Raise ValueError.
Proof.
  intros Hn. cbn [bytes_of_ints].
  replace (n <? 256) with false; [now rewrite andb_false_r|].
  symmetry. apply Z.ltb_ge. lia.
Qed.

Lemma pack_H_ok v :
  u16 v -> pack_H v = Ok [octet (v / 256); octet (v mod 256)].
Proof.
  intros [Hlo Hhi]. unfold pack_H.
  replace ((0 <=? v) && (v <=? 65535)) with true; [reflexivity|].
  symmetry. apply andb_true_iff. split; apply Z.leb_le; lia.
Qed.

Lemma pack_H_raise v : ~ u16 v -> pack_H v = Raise StructError.
Proof.
  intros Hv. unfold pack_H.
  destruct ((0 <=? v) && (v <=? 65535)) eqn:E; [|reflexivity].
  apply andb_true_iff in E. destruct E as [E1 E2].
  apply Z.leb_le in E1. apply Z.leb_le in E2. exfalso. apply Hv. split; lia.
Qed.

(** The two octets of [pack_H] read back, high octet first, as the value. *)
Lemma be16_octets v : u16 v -> be16 (octet (v / 256)) (octet (v mod 256)) = v.
Proof.
  intros [Hlo Hhi]. unfold be16.
  pose proof (Z.mod_pos_bound v 256 ltac:(lia)) as Hm.
  assert (0 <= v / 256 < 256) as Hd
    by (split; [apply Z.div_pos; lia | apply Z.div_lt_upper_bound; lia]).
  rewrite !octet_to_N by lia. rewrite !Z2N.id by lia.
  pose proof (Z.div_mod v 256 ltac:(lia)). lia.
Qed.

Lemma pack_items_H codes v args :
  pack_items ("H"%char :: codes) (v :: args) =
  (b <- pack_H v ;; rest <- pack_items codes args ;; Ok (b ++ rest)).
Proof. reflexivity. Qed.

(** Packing [n] [H] codes: all items in range gives two octets each. *)
Lemma pack_items_ok args :
  Forall u16 args ->
  pack_items (repeat "H"%char (List.length args)) args =
  Ok (flat_map (fun v => [octet (v / 256); octet (v mod 256)]) args).
Proof.
  induction 1 as [|v args Hv _ IH]; [reflexivity|].
  cbn [List.length repeat]. rewrite pack_items_H, (pack_H_ok v Hv), IH.
  reflexivity.
Qed.

(** One item out of range makes the whole call raise. *)
Lemma pack_items_raise args :
  Exists (fun v => ~ u16 v) args ->
  pack_items (repeat "H"%char (List.length args)) args = Raise StructError.
Proof.
  induction 1 as [v args Hv | v args _ IH].
  - cbn [List.length repeat]. rewrite pack_items_H, (pack_H_raise v Hv).
    reflexivity.
  - cbn [List.length repeat]. rewrite pack_items_H, IH.
    unfold pack_H. destruct ((0 <=? v) && (v <=? 65535)); reflexivity.
Qed.

End Primitives.

(** ** Encoding to ASCII and splitting on the dot *)

Section Names.

Lemma encode_ascii_app s1 s2 :
  encode_ascii (s1 ++ s2) =
  (r1 <- encode_ascii s1 ;; r2 <- encode_ascii s2 ;; Ok (r1 ++ r2)).
Proof.
  induction s1 as [|c s1 IH]; cbn [app encode_ascii bind].
  - destruct (encode_ascii s2); reflexivity.
  - destruct (c <? 128)%N; [|reflexivity].
    rewrite IH. destruct (encode_ascii s1); [|reflexivity].
    cbn [bind]. destruct (encode_ascii s2); reflexivity.
Qed.

(** A code point above 127 anywhere makes the encoding raise. *)
Lemma encode_ascii_raise s :
  Exists (fun c => 128 <= c)%N s -> encode_ascii s = Raise UnicodeEncodeError.
Proof.
  induction s as [|c s IH]; intros H; [inversion H|].
  cbn [encode_ascii]. destruct (c <? 128)%N eqn:E; [|reflexivity].
  inversion H as [? ? Hc | ? ? Hs]; subst.
  - apply N.ltb_lt in E. lia.
  - rewrite (IH Hs). reflexivity.
Qed.

(** It raises nothing else, and succeeds on code points below 128 only. *)
Lemma encode_ascii_ok s :
  Forall (fun c => c < 128)%N s -> exists raw, encode_ascii s = Ok raw.
Proof.
  induction 1 as [|c s Hc _ [raw IH]]; [now exists []|].
  cbn [encode_ascii]. apply N.ltb_lt in Hc. rewrite Hc, IH.
  eexists. reflexivity.
Qed.

Lemma split_not_nil sep s : split sep s <> [].
Proof.
  destruct s as [|c s]; cbn [split]; [discriminate|].
  destruct (Byte.eqb c sep); [discriminate|].
  destruct (split sep s); discriminate.
Qed.

(** A final separator adds one empty part at the end. *)
Lemma split_trailing_sep sep s :
  split sep (s ++ [sep]) = split sep s ++ [[]].
Proof.
  induction s as [|c s IH]; cbn [app split].
  - rewrite (Byte.byte_dec_lb (eq_refl sep)). reflexivity.
  - destruct (Byte.eqb c sep).
    + rewrite IH. reflexivity.
    + rewrite IH. destruct (split sep s) as [|p ps] eqn:E.
      * now apply split_not_nil in E.
      * reflexivity.
Qed.

Lemma framed_app ps qs : framed (ps ++ qs) = framed ps ++ framed qs.
Proof. apply flat_map_app. Qed.

(** The loop of [encode_dns_name]: with every part at most 255 octets long
    it appends the wire form of the parts to the accumulator. *)
Lemma encode_parts_ok parts :
  Forall (fun part => List.length part <= 255)%nat parts ->
  forall encoded, encode_parts encoded parts = Ok (encoded ++ framed parts).
Proof.
  induction 1 as [|part parts Hp _ IH]; intros encoded.
  - cbn. now rewrite app_nil_r.
  - cbn [encode_parts]. rewrite bytes_of_ints_one by (unfold len; lia).
    cbn [bind]. rewrite IH. cbn [framed flat_map app].
    now rewrite <- app_assoc.
Qed.

(** A part of more than 255 octets stops the loop with [ValueError]. *)
Lemma encode_parts_raise parts :
  Exists (fun part => 256 <= List.length part)%nat parts ->
  forall encoded, encode_parts encoded parts = Raise ValueError.
Proof.
  induction parts as [|part parts IH]; intros H encoded; [inversion H|].
  cbn [encode_parts].
  destruct (Nat.le_gt_cases 256 (List.length part)) as [Hbig|Hsmall].
  - rewrite bytes_of_ints_one_raise by (unfold len; lia). reflexivity.
  - rewrite bytes_of_ints_one by (unfold len; lia). cbn [bind].
    apply IH. inversion H; subst; [lia | assumption].
Qed.

Lemma encode_dns_name_ok domain_name raw :
  encode_ascii domain_name = Ok raw ->
  Forall (fun part => List.length part <= 255)%nat (split "."%byte raw) ->
  encode_dns_name domain_name = Ok (framed (split "."%byte raw) ++ [x00]).
Proof.
  intros Hraw Hparts. unfold encode_dns_name. rewrite Hraw. cbn [bind].
  rewrite (encode_parts_ok _ Hparts). reflexivity.
Qed.

Lemma framed_length parts :
  (List.length parts <= List.length (framed parts))%nat.
Proof.
  induction parts as [|p ps IH]; [reflexivity|].
  cbn [framed flat_map]. fold (framed ps).
  cbn [List.length app]. rewrite length_app. lia.
Qed.

(** Reading back the wire form of parts that are neither empty nor longer
    than 255 octets gives the parts, and what follows the terminator. *)
Lemma read_labels_framed parts :
  Forall (fun part => 1 <= List.length part <= 255)%nat parts ->
  forall fuel rest,
    (List.length parts < fuel)%nat ->
    read_labels fuel (framed parts ++ x00 :: rest) = Some (parts, rest).
Proof.
  induction 1 as [|part parts [Hlo Hhi] _ IH]; intros fuel rest Hfuel.
  - destruct fuel as [|fuel]; [inversion Hfuel|]. reflexivity.
  - destruct fuel as [|fuel]; [inversion Hfuel|].
    cbn [List.length] in Hfuel.
    cbn [framed flat_map app read_labels]. fold (framed parts).
    rewrite (octet_len_nat part Hhi).
    destruct (List.length part) as [|k] eqn:Ek; [lia|].
    rewrite <- Ek, <- app_assoc.
    replace (List.length (part ++ framed parts ++ x00 :: rest)
             <? List.length part)%nat with false
      by (symmetry; apply Nat.ltb_ge; rewrite length_app; lia).
    rewrite skipn_app, skipn_all, Nat.sub_diag, skipn_O.
    rewrite firstn_app, firstn_all, Nat.sub_diag, firstn_O, app_nil_r.
    cbn [app]. rewrite IH by lia. reflexivity.
Qed.

End Names.

(** ** Header, question and query *)

Section Query.

Lemma header_to_bytes_ok header :
  Forall u16 (astuple header) ->
  header_to_bytes header =
  Ok [octet (id header / 256); octet (id header mod 256);
      octet (flags header / 256); octet (flags header mod 256);
      octet (num_questions header / 256); octet (num_questions header mod 256);
      octet (num_answers header / 256); octet (num_answers header mod 256);
      octet (num_authorities header / 256);
      octet (num_authorities header mod 256);
      octet (num_additionals header / 256);
      octet (num_additionals header mod 256)].
Proof.
  intros H. exact (pack_items_ok (astuple header) H).
Qed.

Lemma question_to_bytes_ok question :
  u16 (type_ question) -> u16 (class_ question) ->
  question_to_bytes question =
  Ok (name question ++
      [octet (type_ question / 256); octet (type_ question mod 256);
       octet (class_ question / 256); octet (class_ question mod 256)]).
Proof.
  intros Ht Hc. unfold question_to_bytes.
  change (struct_pack "!HH" [type_ question; class_ question])
    with (pack_items (repeat "H"%char
                        (List.length [type_ question; class_ question]))
            [type_ question; class_ question]).
  rewrite pack_items_ok by (repeat apply Forall_cons; auto).
  reflexivity.
Qed.

Variable R : RandomSource.

(** The name is encoded before the generator is touched. *)
Lemma build_query_name_raise domain_name record_type s e :
  encode_dns_name domain_name = Raise e ->
  build_query R domain_name record_type s = (Raise e, s).
Proof.
  intros H. unfold build_query, rbind, lift. rewrite H. reflexivity.
Qed.

Lemma build_query_name_ok domain_name record_type s encoded :
  encode_dns_name domain_name = Ok encoded ->
  build_query R domain_name record_type s =
  (h <- header_to_bytes
          (mkDNSHeader (fst (randint R 0 65535 s)) (Z.shiftl 1 8) 1 0 0 0) ;;
   q <- question_to_bytes (mkDNSQuestion encoded record_type CLASS_IN) ;;
   Ok (h ++ q),
   snd (randint R 0 65535 s)).
Proof.
  intros H. unfold build_query, rbind, lift, draw. rewrite H.
  destruct (randint R 0 65535 s) as [v s']. reflexivity.
Qed.

(** The header of a query is always within range: the id comes from
    [randint(0, 65535)] and the other fields are constants. *)
Lemma query_header_in_range s :
  Forall u16
    (astuple (mkDNSHeader (fst (randint R 0 65535 s)) (Z.shiftl 1 8) 1 0 0 0)).
Proof.
  pose proof (randint_range R 0 65535 s ltac:(lia)) as Hid.
  cbn [astuple id flags num_questions num_answers num_authorities
         num_additionals].
  repeat constructor; try exact (proj1 Hid); try exact (proj2 Hid);
    vm_compute; discriminate.
Qed.

End Query.

(** * The claims *)

(** ** Reference vectors *)

(** C1. With the transaction id fixed to 0x8298, whatever the generator,
    [build_query("www.example.com", 1)] returns exactly the 33 octets of
    hex 82980100000100000000000003777777076578616d706c6503636f6d0000010001. *)
Theorem build_query_reference_vector (R : RandomSource) (s : rng_state R) :
  fst (randint R 0 65535 s) = 0x8298 ->
  fst (build_query R (lit "www.example.com") 1 s) =
    Ok [x82; x98; x01; x00; x00; x01; x00; x00; x00; x00; x00; x00;
        x03; x77; x77; x77; x07; x65; x78; x61; x6d; x70; x6c; x65;
        x03; x63; x6f; x6d; x00; x00; x01; x00; x01]
  /\ hex [x82; x98; x01; x00; x00; x01; x00; x00; x00; x00; x00; x00;
          x03; x77; x77; x77; x07; x65; x78; x61; x6d; x70; x6c; x65;
          x03; x63; x6f; x6d; x00; x00; x01; x00; x01]
     = "82980100000100000000000003777777076578616d706c6503636f6d0000010001"%string.
Proof.
  intros Hid.
  assert (encode_dns_name (lit "www.example.com") =
          Ok [x03; x77; x77; x77; x07; x65; x78; x61; x6d; x70; x6c; x65;
              x03; x63; x6f; x6d; x00]) as E by (vm_compute; reflexivity).
  rewrite (build_query_name_ok R _ 1 s _ E). cbn [fst]. rewrite Hid.
  split; vm_compute; reflexivity.
Qed.

Lemma build_query_reference_vector_witness :
  fst (build_query lcg (lit "www.example.com") 1 0x8298) =
    Ok [x82; x98; x01; x00; x00; x01; x00; x00; x00; x00; x00; x00;
        x03; x77; x77; x77; x07; x65; x78; x61; x6d; x70; x6c; x65;
        x03; x63; x6f; x6d; x00; x00; x01; x00; x01]
  /\ hex [x82; x98; x01; x00; x00; x01; x00; x00; x00; x00; x00; x00;
          x03; x77; x77; x77; x07; x65; x78; x61; x6d; x70; x6c; x65;
          x03; x63; x6f; x6d; x00; x00; x01; x00; x01]
     = "82980100000100000000000003777777076578616d706c6503636f6d0000010001"%string.
Proof.
  apply (build_query_reference_vector lcg 0x8298). reflexivity.
Defined.

(** C8. [encode_dns_name("google.com")] is the 12 octets
    06 'google' 03 'com' 00, hex 06676f6f676c6503636f6d00. *)
Theorem encode_google_com :
  encode_dns_name (lit "google.com") =
    Ok [x06; x67; x6f; x6f; x67; x6c; x65; x03; x63; x6f; x6d; x00]
  /\ hex [x06; x67; x6f; x6f; x67; x6c; x65; x03; x63; x6f; x6d; x00]
     = "06676f6f676c6503636f6d00"%string
  /\ len [x06; x67; x6f; x6f; x67; x6c; x65; x03; x63; x6f; x6d; x00] = 12.
Proof. repeat split; vm_compute; reflexivity. Qed.

(** C10. [encode_dns_name("")] is the two octets 00 00: a zero-length label
    for the single empty part and then the terminator; it is not the
    one-octet encoding 00 of the root name. *)
Theorem encode_empty_string :
  split "."%byte [] = [[]]
  /\ encode_dns_name (lit "") = Ok [x00; x00]
  /\ encode_dns_name (lit "") <> Ok [x00].
Proof.
  split; [reflexivity|]. split; [vm_compute; reflexivity|].
  vm_compute. discriminate.
Qed.

(** ** Errors *)

(** C3. A domain name with a code point outside ASCII makes
    [encode_dns_name] raise [UnicodeEncodeError]; [build_query] raises the
    same, returns no octets and leaves the generator untouched. *)
Theorem non_ascii_name_raises (domain_name : str) :
  Exists (fun c => 128 <= c)%N domain_name ->
  encode_dns_name domain_name = Raise UnicodeEncodeError
  /\ forall (R : RandomSource) (record_type : Z) (s : rng_state R),
       build_query R domain_name record_type s = (Raise UnicodeEncodeError, s).
Proof.
  intros H.
  assert (encode_dns_name domain_name = Raise UnicodeEncodeError) as E.
  { unfold encode_dns_name. rewrite (encode_ascii_raise _ H). reflexivity. }
  split; [exact E|]. intros R record_type s.
  now apply build_query_name_raise.
Qed.

(** Witness: "café.com", the code point 233 in fourth position. *)
Lemma non_ascii_name_raises_witness :
  encode_dns_name (lit "caf" ++ [233%N] ++ lit ".com") = Raise UnicodeEncodeError
  /\ forall (R : RandomSource) (record_type : Z) (s : rng_state R),
       build_query R (lit "caf" ++ [233%N] ++ lit ".com") record_type s
       = (Raise UnicodeEncodeError, s).
Proof.
  apply (non_ascii_name_raises (lit "caf" ++ [233%N] ++ lit ".com")).
  apply Exists_cons_tl, Exists_cons_tl, Exists_cons_tl, Exists_cons_hd.
  vm_compute. discriminate.
Defined.

(** C9. A header with a field below 0 or above 65535 makes
    [header_to_bytes] raise [struct.error]: nothing is truncated and no
    octets are returned. *)
Theorem header_out_of_range_raises (header : DNSHeader) :
  Exists (fun v => ~ u16 v) (astuple header) ->
  header_to_bytes header = Raise StructError.
Proof.
  intros H. exact (pack_items_raise (astuple header) H).
Qed.

Lemma header_out_of_range_raises_witness :
  header_to_bytes (mkDNSHeader 65536 0 1 0 0 (-1)) = Raise StructError.
Proof.
  apply (header_out_of_range_raises (mkDNSHeader 65536 0 1 0 0 (-1))).
  apply Exists_cons_hd. unfold u16. cbn [id]. lia.
Defined.

(** ** The header *)

(** C7. For a header whose six fields lie in [0, 65535], [header_to_bytes]
    returns exactly 12 octets, and each consecutive pair, read high octet
    first, is the field of that position: id, flags, num_questions,
    num_answers, num_authorities, num_additionals. *)
Theorem header_to_bytes_layout (header : DNSHeader) :
  Forall u16 (astuple header) ->
  exists b0 b1 b2 b3 b4 b5 b6 b7 b8 b9 b10 b11,
    header_to_bytes header = Ok [b0; b1; b2; b3; b4; b5; b6; b7; b8; b9; b10; b11]
    /\ be16 b0 b1 = id header
    /\ be16 b2 b3 = flags header
    /\ be16 b4 b5 = num_questions header
    /\ be16 b6 b7 = num_answers header
    /\ be16 b8 b9 = num_authorities header
    /\ be16 b10 b11 = num_additionals header.
Proof.
  intros H. rewrite (header_to_bytes_ok header H).
  unfold astuple in H.
  repeat match goal with
         | H : Forall _ (_ :: _) |- _ => apply Forall_cons_iff in H; destruct H
         end.
  do 12 eexists. split; [reflexivity|].
  repeat split; apply be16_octets; assumption.
Qed.

(** Witness: the header of the notebook's own example,
    [DNSHeader(id=0x1314, flags=0, num_questions=1, ...)]. *)
Lemma header_to_bytes_layout_witness :
  exists b0 b1 b2 b3 b4 b5 b6 b7 b8 b9 b10 b11,
    header_to_bytes (mkDNSHeader 0x1314 0 1 0 0 0)
    = Ok [b0; b1; b2; b3; b4; b5; b6; b7; b8; b9; b10; b11]
    /\ be16 b0 b1 = 0x1314
    /\ be16 b2 b3 = 0
    /\ be16 b4 b5 = 1
    /\ be16 b6 b7 = 0
    /\ be16 b8 b9 = 0
    /\ be16 b10 b11 = 0.
Proof.
  apply (header_to_bytes_layout (mkDNSHeader 0x1314 0 1 0 0 0)).
  repeat apply Forall_cons; try apply Forall_nil; unfold u16; cbn; lia.
Defined.

(** ** The flags and counts of a query *)

(** C5. Whenever [build_query] returns a message, the message starts with
    the 12 octets of a header whose flags are exactly 0x0100 (bit 8 set and
    no other), whose num_questions is 1 and whose three other counts are 0;
    octets 2 to 11 of the message are 01 00 00 01 00 00 00 00 00 00. *)
Theorem build_query_header_fields
  (R : RandomSource) (domain_name : str) (record_type : Z)
  (s : rng_state R) (query : bytes) :
  fst (build_query R domain_name record_type s) = Ok query ->
  exists (header : DNSHeader) (h q : bytes),
    flags header = 0x0100
    /\ (forall i, Z.testbit (flags header) i = (i =? 8))
    /\ num_questions header = 1
    /\ num_answers header = 0
    /\ num_authorities header = 0
    /\ num_additionals header = 0
    /\ header_to_bytes header = Ok h
    /\ query = h ++ q
    /\ List.length h = 12%nat
    /\ firstn 10 (skipn 2 query) =
       [x01; x00; x00; x01; x00; x00; x00; x00; x00; x00].
Proof.
  intros Hq.
  destruct (encode_dns_name domain_name) as [encoded|e] eqn:E.
  2:{ rewrite (build_query_name_raise R _ record_type s e E) in Hq.
      discriminate. }
  rewrite (build_query_name_ok R _ record_type s _ E) in Hq. cbn [fst] in Hq.
  rewrite (header_to_bytes_ok _ (query_header_in_range R s)) in Hq.
  cbn [bind] in Hq.
  destruct (question_to_bytes (mkDNSQuestion encoded record_type CLASS_IN))
    as [q|] eqn:Q; [|discriminate].
  cbn [bind] in Hq. injection Hq as <-.
  eexists (mkDNSHeader (fst (randint R 0 65535 s)) (Z.shiftl 1 8) 1 0 0 0).
  eexists. exists q.
  split; [reflexivity|].
  split.
  { intros i. cbn [flags]. change (Z.shiftl 1 8) with (2 ^ 8).
    destruct (Z.ltb_spec i 0) as [Hneg|Hpos].
    - rewrite Z.testbit_neg_r by assumption. symmetry. apply Z.eqb_neq. lia.
    - rewrite Z.pow2_bits_eqb by lia. apply Z.eqb_sym. }
  repeat (split; [reflexivity|]).
  split; [apply (header_to_bytes_ok _ (query_header_in_range R s))|].
  repeat (split; [reflexivity|]). reflexivity.
Qed.

(** Witness: the query for "example.com" of the notebook, on the concrete
    generator started at 17. *)
Lemma build_query_header_fields_witness :
  exists (header : DNSHeader) (h q : bytes),
    flags header = 0x0100
    /\ (forall i, Z.testbit (flags header) i = (i =? 8))
    /\ num_questions header = 1
    /\ num_answers header = 0
    /\ num_authorities header = 0
    /\ num_additionals header = 0
    /\ header_to_bytes header = Ok h
    /\ [x00; x11; x01; x00; x00; x01; x00; x00; x00; x00; x00; x00;
        x07; x65; x78; x61; x6d; x70; x6c; x65; x03; x63; x6f; x6d; x00;
        x00; x01; x00; x01] = h ++ q
    /\ List.length h = 12%nat
    /\ firstn 10 (skipn 2
         [x00; x11; x01; x00; x00; x01; x00; x00; x00; x00; x00; x00;
          x07; x65; x78; x61; x6d; x70; x6c; x65; x03; x63; x6f; x6d; x00;
          x00; x01; x00; x01]) =
       [x01; x00; x00; x01; x00; x00; x00; x00; x00; x00].
Proof.
  apply (build_query_header_fields lcg (lit "example.com") TYPE_A 17).
  vm_compute. reflexivity.
Defined.

(** ** The length of a query *)

(** C4, as the code has it.  For an ASCII domain name whose dot-separated
    parts are each at most 255 octets long and a 16-bit record type,
    [encode_dns_name] and [build_query] both return, and the query is
    12 + len(encoded name) + 4 octets long; [build_query("example.com", 1)]
    returns 29 octets, its name taking 13. *)
Theorem build_query_length :
  (forall (R : RandomSource) (domain_name : str) (record_type : Z)
          (s : rng_state R) (raw : bytes),
      encode_ascii domain_name = Ok raw ->
      Forall (fun part => List.length part <= 255)%nat (split "."%byte raw) ->
      u16 record_type ->
      exists encoded query,
        encode_dns_name domain_name = Ok encoded
        /\ fst (build_query R domain_name record_type s) = Ok query
        /\ len query = 12 + len encoded + 4)
  /\ (forall (R : RandomSource) (s : rng_state R),
      exists encoded query,
        encode_dns_name (lit "example.com") = Ok encoded
        /\ len encoded = 13
        /\ fst (build_query R (lit "example.com") 1 s) = Ok query
        /\ len query = 29).
Proof.
  assert (forall (R : RandomSource) (domain_name : str) (record_type : Z)
                 (s : rng_state R) (encoded : bytes),
             encode_dns_name domain_name = Ok encoded ->
             u16 record_type ->
             exists query,
               fst (build_query R domain_name record_type s) = Ok query
               /\ len query = 12 + len encoded + 4) as Hlen.
  { intros R domain_name record_type s encoded E Ht.
    rewrite (build_query_name_ok R _ record_type s _ E). cbn [fst].
    rewrite (header_to_bytes_ok _ (query_header_in_range R s)).
    rewrite question_to_bytes_ok
      by (cbn [type_ class_]; first [assumption | unfold u16, CLASS_IN; lia]).
    cbn [bind name]. eexists. split; [reflexivity|].
    unfold len. cbn [List.length app]. rewrite length_app.
    cbn [List.length]. lia. }
  split.
  - intros R domain_name record_type s raw Hraw Hparts Ht.
    pose proof (encode_dns_name_ok _ _ Hraw Hparts) as E.
    destruct (Hlen R domain_name record_type s _ E Ht) as [query [Hq Hl]].
    eauto.
  - intros R s.
    assert (encode_dns_name (lit "example.com") =
            Ok [x07; x65; x78; x61; x6d; x70; x6c; x65; x03; x63; x6f; x6d; x00])
      as E by (vm_compute; reflexivity).
    destruct (Hlen R _ 1 s _ E ltac:(unfold u16; lia)) as [query [Hq Hl]].
    exists [x07; x65; x78; x61; x6d; x70; x6c; x65; x03; x63; x6f; x6d; x00],
           query.
    split; [exact E|]. split; [reflexivity|]. split; [exact Hq | exact Hl].
Qed.

(** Witness: "google.com" with type A on the concrete generator. *)
Lemma build_query_length_witness :
  exists encoded query,
    encode_dns_name (lit "google.com") = Ok encoded
    /\ fst (build_query lcg (lit "google.com") TYPE_A 5) = Ok query
    /\ len query = 12 + len encoded + 4.
Proof.
  apply (proj1 build_query_length lcg (lit "google.com") TYPE_A 5
           [x67; x6f; x6f; x67; x6c; x65; x2e; x63; x6f; x6d]).
  - vm_compute. reflexivity.
  - vm_compute. repeat constructor.
  - unfold u16, TYPE_A. lia.
Defined.

(** C4 as stated fails: a name made of one part of 256 letters "a" is
    ASCII, yet [bytes([256])] raises [ValueError], so neither
    [encode_dns_name] nor [build_query] returns anything to measure. *)
Lemma build_query_length_long_label :
  Forall (fun c => c < 128)%N (repeat 97%N 256)
  /\ u16 1
  /\ encode_dns_name (repeat 97%N 256) = Raise ValueError
  /\ fst (build_query lcg (repeat 97%N 256) 1 0) = Raise ValueError
  /\ ~ (exists encoded query,
          encode_dns_name (repeat 97%N 256) = Ok encoded
          /\ fst (build_query lcg (repeat 97%N 256) 1 0) = Ok query
          /\ len query = 12 + len encoded + 4).
Proof.
  assert (encode_dns_name (repeat 97%N 256) = Raise ValueError) as E
    by (vm_compute; reflexivity).
  split; [apply Forall_forall; intros c Hc; apply repeat_spec in Hc; subst; lia|].
  split; [unfold u16; lia|].
  split; [exact E|].
  split; [rewrite (build_query_name_raise lcg _ 1 0 _ E); reflexivity|].
  intros [encoded [query [E' _]]]. rewrite E in E'. discriminate.
Qed.

(** ** A name that ends in a dot *)

(** C2, as the code has it.  For an ASCII domain name that ends in "." (its
    parts at most 255 octets long), the empty part after the last dot is
    encoded as a zero-length label of its own and the terminator follows:
    the output is the encoding of the name without its final dot with one
    more octet 00 appended, so it ends in two octets 00. *)
Theorem encode_trailing_dot (stem : str) (raw : bytes) :
  encode_ascii (stem ++ lit ".") = Ok raw ->
  Forall (fun part => List.length part <= 255)%nat (split "."%byte raw) ->
  exists body,
    encode_dns_name stem = Ok (body ++ [x00])
    /\ encode_dns_name (stem ++ lit ".") = Ok (body ++ [x00; x00]).
Proof.
  intros Hraw Hparts.
  rewrite encode_ascii_app in Hraw.
  destruct (encode_ascii stem) as [raw0|] eqn:E0; [|discriminate].
  cbn in Hraw. injection Hraw as <-.
  rewrite split_trailing_sep in Hparts.
  apply Forall_app in Hparts. destruct Hparts as [Hparts0 _].
  exists (framed (split "."%byte raw0)). split.
  - now apply encode_dns_name_ok.
  - unfold encode_dns_name. rewrite encode_ascii_app, E0. cbn [bind].
    change (encode_ascii (lit ".")) with (Ok ["."%byte]). cbn [bind].
    rewrite split_trailing_sep.
    rewrite encode_parts_ok
      by (apply Forall_app; split; [assumption | repeat constructor]).
    cbn [bind app]. rewrite framed_app, <- app_assoc. reflexivity.
Qed.

Lemma encode_trailing_dot_witness :
  exists body,
    encode_dns_name (lit "google.com") = Ok (body ++ [x00])
    /\ encode_dns_name (lit "google.com" ++ lit ".") = Ok (body ++ [x00; x00]).
Proof.
  apply (encode_trailing_dot (lit "google.com")
           [x67; x6f; x6f; x67; x6c; x65; x2e; x63; x6f; x6d; x2e]).
  - vm_compute. reflexivity.
  - vm_compute. repeat constructor.
Defined.

(** C2 as stated fails at "google.com.": the output ends in 00 00, the
    first of them the length prefix of an empty label. *)
Lemma encode_trailing_dot_double_zero :
  encode_dns_name (lit "google.com.") =
    Ok [x06; x67; x6f; x6f; x67; x6c; x65; x03; x63; x6f; x6d; x00; x00]
  /\ ~ (exists body last_octet,
          encode_dns_name (lit "google.com.") = Ok (body ++ [last_octet; x00])
          /\ last_octet <> x00).
Proof.
  assert (encode_dns_name (lit "google.com.") =
          Ok [x06; x67; x6f; x6f; x67; x6c; x65; x03; x63; x6f; x6d; x00; x00])
    as E by (vm_compute; reflexivity).
  split; [exact E|].
  intros [body [b [E' Hb]]]. rewrite E in E'. injection E' as E'.
  apply Hb.
  change [x06; x67; x6f; x6f; x67; x6c; x65; x03; x63; x6f; x6d; x00; x00]
    with ([x06; x67; x6f; x6f; x67; x6c; x65; x03; x63; x6f; x6d] ++ [x00; x00])
    in E'.
  assert (([x06; x67; x6f; x6f; x67; x6c; x65; x03; x63; x6f; x6d] ++ [x00])
            ++ [x00] = (body ++ [b]) ++ [x00]) as E2
    by (rewrite <- !app_assoc; exact E').
  apply app_inj_tail in E2. destruct E2 as [E2 _].
  apply app_inj_tail in E2. destruct E2 as [_ E2]. symmetry. exact E2.
Qed.

(** ** Round trip *)

(** C6, as the code has it.  For an ASCII domain name whose dot-separated
    labels are each between 1 and 63 octets long, the output of
    [encode_dns_name] begins with the length of the first label, ends with
    the octets of the last label followed by the terminator 00, and reading
    it back prefix by prefix gives exactly the labels, nothing left over. *)
Theorem encode_dns_name_roundtrip (domain_name : str) (raw : bytes) :
  encode_ascii domain_name = Ok raw ->
  Forall (fun label => 1 <= List.length label <= 63)%nat (split "."%byte raw) ->
  exists encoded,
    encode_dns_name domain_name = Ok encoded
    /\ (exists first others prefix tail,
          split "."%byte raw = first :: others
          /\ encoded = prefix :: tail
          /\ Z.of_N (Byte.to_N prefix) = len first)
    /\ (exists front final,
          last (split "."%byte raw) [] = final
          /\ final <> []
          /\ encoded = front ++ final ++ [x00])
    /\ decode_dns_name encoded = Some (split "."%byte raw, []).
Proof.
  intros Hraw Hlabels.
  pose proof (split_not_nil "."%byte raw) as Hne.
  remember (split "."%byte raw) as labels eqn:Elabels.
  assert (Forall (fun part => List.length part <= 255)%nat labels) as H255
    by (eapply Forall_impl; [|exact Hlabels]; cbn; intros; lia).
  assert (Forall (fun part => 1 <= List.length part <= 255)%nat labels) as H1
    by (eapply Forall_impl; [|exact Hlabels]; cbn; intros; lia).
  exists (framed labels ++ [x00]).
  split; [rewrite Elabels in *; now apply encode_dns_name_ok|].
  clear Elabels Hraw. split; [|split].
  - destruct labels as [|first others].
    + now contradiction Hne.
    + exists first, others. eexists. eexists.
      split; [reflexivity|]. split; [reflexivity|].
      apply Forall_inv in H255. unfold len.
      rewrite octet_to_N by (unfold len; lia). lia.
  - destruct (exists_last Hne) as [init [final El]]. rewrite El in *.
    exists (framed init ++ [octet (len final)]), final.
    split; [apply last_last|]. split.
    + apply Forall_app in H1. destruct H1 as [_ H1].
      apply Forall_inv in H1. destruct final; [cbn in H1; lia | discriminate].
    + rewrite framed_app. cbn [framed flat_map]. rewrite app_nil_r.
      rewrite <- !app_assoc. reflexivity.
  - unfold decode_dns_name. apply read_labels_framed; [exact H1|].
    rewrite length_app. cbn [List.length]. rewrite Nat.add_1_r.
    apply Nat.lt_succ_r, framed_length.
Qed.

Lemma encode_dns_name_roundtrip_witness :
  exists encoded,
    encode_dns_name (lit "www.example.com") = Ok encoded
    /\ (exists first others prefix tail,
          [[x77; x77; x77]; [x65; x78; x61; x6d; x70; x6c; x65]; [x63; x6f; x6d]]
          = first :: others
          /\ encoded = prefix :: tail
          /\ Z.of_N (Byte.to_N prefix) = len first)
    /\ (exists front final,
          [x63; x6f; x6d] = final
          /\ final <> []
          /\ encoded = front ++ final ++ [x00])
    /\ decode_dns_name encoded =
       Some ([[x77; x77; x77]; [x65; x78; x61; x6d; x70; x6c; x65];
              [x63; x6f; x6d]], []).
Proof.
  apply (encode_dns_name_roundtrip (lit "www.example.com")
           [x77; x77; x77; x2e; x65; x78; x61; x6d; x70; x6c; x65; x2e;
            x63; x6f; x6d]).
  - vm_compute. reflexivity.
  - vm_compute. repeat constructor.
Defined.

(** C6 as stated fails at "google.com.": its labels "google", "com" and the
    empty one are all at most 63 octets long, yet the output ends in two
    octets 00 and reading it back stops at the first of them, giving two
    labels and leaving one octet. *)
Lemma encode_dns_name_roundtrip_empty_label :
  encode_ascii (lit "google.com.") =
    Ok [x67; x6f; x6f; x67; x6c; x65; x2e; x63; x6f; x6d; x2e]
  /\ split "."%byte [x67; x6f; x6f; x67; x6c; x65; x2e; x63; x6f; x6d; x2e]
     = [[x67; x6f; x6f; x67; x6c; x65]; [x63; x6f; x6d]; []]
  /\ Forall (fun label => List.length label <= 63)%nat
       [[x67; x6f; x6f; x67; x6c; x65]; [x63; x6f; x6d]; []]
  /\ encode_dns_name (lit "google.com.") =
       Ok ([x06; x67; x6f; x6f; x67; x6c; x65; x03; x63; x6f; x6d] ++ [x00; x00])
  /\ decode_dns_name
       [x06; x67; x6f; x6f; x67; x6c; x65; x03; x63; x6f; x6d; x00; x00]
     = Some ([[x67; x6f; x6f; x67; x6c; x65]; [x63; x6f; x6d]], [x00])
  /\ decode_dns_name
       [x06; x67; x6f; x6f; x67; x6c; x65; x03; x63; x6f; x6d; x00; x00]
     <> Some ([[x67; x6f; x6f; x67; x6c; x65]; [x63; x6f; x6d]; []], []).
Proof.
  split; [vm_compute; reflexivity|].
  split; [vm_compute; reflexivity|].
  split; [repeat constructor|].
  split; [vm_compute; reflexivity|].
  split; [vm_compute; reflexivity|].
  vm_compute. discriminate.
Qed.

(** * Further properties of the four functions *)

(** ** More on [split] and the wire form *)

Section Splitting.

Lemma eqb_neq_false (c sep : byte) : c <> sep -> Byte.eqb c sep = false.
Proof.
  intros Hne. destruct (Byte.eqb c sep) eqn:E; [|reflexivity].
  now apply Byte.byte_dec_bl in E.
Qed.

(** Splitting around a separator splits both sides. *)
Lemma split_app_sep sep a b :
  split sep (a ++ sep :: b) = split sep a ++ split sep b.
Proof.
  induction a as [|c a IH]; cbn [app split].
  - rewrite (Byte.byte_dec_lb (eq_refl sep)). reflexivity.
  - destruct (Byte.eqb c sep).
    + rewrite IH. reflexivity.
    + rewrite IH. destruct (split sep a) as [|p ps] eqn:E.
      * now apply split_not_nil in E.
      * reflexivity.
Qed.

(** Without a separator there is one part, the input itself. *)
Lemma split_no_sep sep s : ~ In sep s -> split sep s = [s].
Proof.
  induction s as [|c s IH]; intros Hnot; [reflexivity|].
  cbn [split]. rewrite eqb_neq_false by (intros ->; apply Hnot; now left).
  rewrite IH by (intros Hin; apply Hnot; now right). reflexivity.
Qed.

(** Joining the parts with the separator gives the input back. *)
Lemma join_split sep s : join sep (split sep s) = s.
Proof.
  induction s as [|c s IH]; [reflexivity|].
  cbn [split]. destruct (Byte.eqb c sep) eqn:E.
  - apply Byte.byte_dec_bl in E. subst c.
    destruct (split sep s) as [|p ps] eqn:Es; [now apply split_not_nil in Es|].
    cbn [join app flat_map] in *. now rewrite IH.
  - destruct (split sep s) as [|p ps] eqn:Es; [now apply split_not_nil in Es|].
    cbn [join app] in *. now rewrite IH.
Qed.

Lemma split_inj sep s1 s2 : split sep s1 = split sep s2 -> s1 = s2.
Proof.
  intros H. rewrite <- (join_split sep s1), <- (join_split sep s2).
  now rewrite H.
Qed.

(** Every separator is replaced by a length octet and one more length octet
    is put in front: the wire form is one octet longer than the input. *)
Lemma framed_split_length sep s :
  List.length (framed (split sep s)) = S (List.length s).
Proof.
  induction s as [|c s IH]; [reflexivity|].
  cbn [split]. destruct (Byte.eqb c sep).
  - cbn [framed flat_map app List.length]. fold (framed (split sep s)).
    now rewrite IH.
  - destruct (split sep s) as [|p ps] eqn:Es; [now apply split_not_nil in Es|].
    cbn [framed flat_map app List.length] in *.
    rewrite length_app in *. cbn [List.length]. lia.
Qed.

Lemma app_same_length {A} (p q x y : list A) :
  List.length p = List.length q -> p ++ x = q ++ y -> p = q /\ x = y.
Proof.
  revert q. induction p as [|a p IH]; intros [|b q] Hlen Heq;
    try discriminate Hlen.
  - now split.
  - cbn [app] in Heq. injection Heq as -> Heq. injection Hlen as Hlen.
    destruct (IH q Hlen Heq) as [-> ->]. now split.
Qed.

(** The wire form determines the parts. *)
Lemma framed_inj ps :
  Forall (fun part => List.length part <= 255)%nat ps ->
  forall qs,
    Forall (fun part => List.length part <= 255)%nat qs ->
    framed ps = framed qs -> ps = qs.
Proof.
  induction 1 as [|p ps Hp _ IH]; intros qs Hqs Heq.
  - destruct qs; [reflexivity | discriminate Heq].
  - destruct Hqs as [|q qs Hq Hqs]; [discriminate Heq|].
    cbn [framed flat_map app] in Heq. fold (framed ps) (framed qs) in Heq.
    injection Heq as Hoct Heq.
    assert (List.length p = List.length q) as Hlen.
    { rewrite <- (octet_len_nat p Hp), <- (octet_len_nat q Hq).
      now rewrite Hoct. }
    destruct (app_same_length _ _ _ _ Hlen Heq) as [-> Hrest].
    f_equal. now apply IH.
Qed.

End Splitting.

(** ** What a result of [encode_dns_name] tells about its input *)

Section Inversion.

Lemma encode_ascii_inv s raw :
  encode_ascii s = Ok raw ->
  Forall (fun c => c < 128)%N s
  /\ raw = List.map (fun c => octet (Z.of_N c)) s.
Proof.
  revert raw. induction s as [|c s IH]; intros raw H.
  - injection H as <-. now split.
  - cbn [encode_ascii] in H. destruct (c <? 128)%N eqn:Ec; [|discriminate].
    destruct (encode_ascii s) as [rest|]; [|discriminate].
    cbn [bind] in H. injection H as <-.
    destruct (IH rest eq_refl) as [Hs ->]. apply N.ltb_lt in Ec.
    split; [now constructor | reflexivity].
Qed.

Lemma encode_ascii_raise_inv s e :
  encode_ascii s = Raise e ->
  e = UnicodeEncodeError /\ Exists (fun c => 128 <= c)%N s.
Proof.
  induction s as [|c s IH]; intros H; [discriminate|].
  cbn [encode_ascii] in H. destruct (c <? 128)%N eqn:Ec.
  - destruct (encode_ascii s) as [rest|e']; [discriminate|].
    cbn [bind] in H. injection H as <-.
    destruct (IH eq_refl) as [-> Hs]. split; [reflexivity|now right].
  - injection H as <-. apply N.ltb_ge in Ec. split; [reflexivity|now left].
Qed.

Lemma encode_ascii_length s raw :
  encode_ascii s = Ok raw -> List.length raw = List.length s.
Proof.
  intros H. destruct (encode_ascii_inv _ _ H) as [_ ->]. apply length_map.
Qed.

Lemma octet_ascii_inj (c1 c2 : N) :
  (c1 < 128)%N -> (c2 < 128)%N ->
  octet (Z.of_N c1) = octet (Z.of_N c2) -> c1 = c2.
Proof.
  intros H1 H2 H. apply (f_equal Byte.to_N) in H.
  rewrite !octet_to_N in H by lia. lia.
Qed.

Lemma encode_ascii_inj s1 s2 raw :
  encode_ascii s1 = Ok raw -> encode_ascii s2 = Ok raw -> s1 = s2.
Proof.
  intros H1 H2.
  destruct (encode_ascii_inv _ _ H1) as [F1 E1].
  destruct (encode_ascii_inv _ _ H2) as [F2 E2].
  subst raw. clear H1 H2. revert s2 F2 E2.
  induction F1 as [|c1 s1 Hc1 _ IH]; intros s2 F2 E2.
  - destruct s2; [reflexivity | discriminate].
  - destruct F2 as [|c2 s2 Hc2 F2]; [discriminate|].
    cbn [List.map] in E2. injection E2 as Hc Hs.
    f_equal; [symmetry; now apply octet_ascii_inj | now apply IH].
Qed.

Lemma encode_parts_inv parts :
  forall encoded e,
    encode_parts encoded parts = Ok e ->
    Forall (fun part => List.length part <= 255)%nat parts
    /\ e = encoded ++ framed parts.
Proof.
  induction parts as [|part parts IH]; intros encoded e H.
  - injection H as <-. split; [constructor | now rewrite app_nil_r].
  - cbn [encode_parts] in H.
    destruct (Nat.le_gt_cases 256 (List.length part)) as [Hbig|Hsmall].
    + rewrite bytes_of_ints_one_raise in H by (unfold len; lia). discriminate.
    + rewrite bytes_of_ints_one in H by (unfold len; lia). cbn [bind] in H.
      destruct (IH _ _ H) as [Hparts ->].
      split; [constructor; [lia | assumption]|].
      cbn [framed flat_map app]. now rewrite <- app_assoc.
Qed.

Lemma encode_parts_raise_inv parts :
  forall encoded e,
    encode_parts encoded parts = Raise e ->
    e = ValueError /\ Exists (fun part => 256 <= List.length part)%nat parts.
Proof.
  induction parts as [|part parts IH]; intros encoded e H; [discriminate|].
  cbn [encode_parts] in H.
  destruct (Nat.le_gt_cases 256 (List.length part)) as [Hbig|Hsmall].
  - rewrite bytes_of_ints_one_raise in H by (unfold len; lia).
    injection H as <-. split; [reflexivity | now left].
  - rewrite bytes_of_ints_one in H by (unfold len; lia). cbn [bind] in H.
    destruct (IH _ _ H) as [-> Hex]. split; [reflexivity | now right].
Qed.

Lemma encode_dns_name_inv domain_name e :
  encode_dns_name domain_name = Ok e ->
  exists raw,
    encode_ascii domain_name = Ok raw
    /\ Forall (fun part => List.length part <= 255)%nat (split "."%byte raw)
    /\ e = framed (split "."%byte raw) ++ [x00].
Proof.
  unfold encode_dns_name. intros H.
  destruct (encode_ascii domain_name) as [raw|]; [|discriminate].
  cbn [bind] in H.
  destruct (encode_parts [] (split "."%byte raw)) as [encoded|] eqn:E;
    [|discriminate].
  cbn [bind] in H. injection H as <-.
  destruct (encode_parts_inv _ _ _ E) as [Hparts ->].
  exists raw. repeat split; assumption.
Qed.

Lemma encoded_name_length domain_name encoded :
  encode_dns_name domain_name = Ok encoded ->
  len encoded = len domain_name + 2.
Proof.
  intros H. destruct (encode_dns_name_inv _ _ H) as [raw [Hraw [_ ->]]].
  unfold len. rewrite length_app, framed_split_length.
  rewrite (encode_ascii_length _ _ Hraw). cbn [List.length]. lia.
Qed.

(** What a returned query was made of. *)
Lemma build_query_inv (R : RandomSource) domain_name record_type s query :
  fst (build_query R domain_name record_type s) = Ok query ->
  exists encoded tail,
    encode_dns_name domain_name = Ok encoded
    /\ question_to_bytes (mkDNSQuestion encoded record_type CLASS_IN) = Ok tail
    /\ query =
       [octet (fst (randint R 0 65535 s) / 256);
        octet (fst (randint R 0 65535 s) mod 256);
        x01; x00; x00; x01; x00; x00; x00; x00; x00; x00] ++ tail.
Proof.
  intros Hq.
  destruct (encode_dns_name domain_name) as [encoded|e] eqn:E.
  2:{ rewrite (build_query_name_raise R _ record_type s e E) in Hq.
      discriminate. }
  rewrite (build_query_name_ok R _ record_type s _ E) in Hq. cbn [fst] in Hq.
  rewrite (header_to_bytes_ok _ (query_header_in_range R s)) in Hq.
  cbn [bind] in Hq.
  destruct (question_to_bytes (mkDNSQuestion encoded record_type CLASS_IN))
    as [tail|] eqn:Q; [|discriminate].
  cbn [bind] in Hq. injection Hq as <-.
  exists encoded, tail. split; [reflexivity|]. split; [exact Q | reflexivity].
Qed.

End Inversion.

(** ** The question section *)

Section Question.

Lemma question_to_bytes_raise question :
  ~ u16 (type_ question) \/ ~ u16 (class_ question) ->
  question_to_bytes question = Raise StructError.
Proof.
  intros H. unfold question_to_bytes.
  change (struct_pack "!HH" [type_ question; class_ question])
    with (pack_items (repeat "H"%char
                        (List.length [type_ question; class_ question]))
            [type_ question; class_ question]).
  rewrite pack_items_raise; [reflexivity|].
  destruct H as [H|H]; [now left | right; now left].
Qed.

Lemma u16_dec v : {u16 v} + {~ u16 v}.
Proof.
  unfold u16. destruct (Z_le_dec 0 v), (Z_le_dec v 65535);
    [left | right | right | right]; lia.
Qed.

Lemma question_to_bytes_inv question tail :
  question_to_bytes question = Ok tail ->
  u16 (type_ question) /\ u16 (class_ question)
  /\ tail = name question ++
            [octet (type_ question / 256); octet (type_ question mod 256);
             octet (class_ question / 256); octet (class_ question mod 256)].
Proof.
  intros H.
  destruct (u16_dec (type_ question)) as [Ht|Ht];
    [|rewrite question_to_bytes_raise in H by (now left); discriminate].
  destruct (u16_dec (class_ question)) as [Hc|Hc];
    [|rewrite question_to_bytes_raise in H by (now right); discriminate].
  rewrite (question_to_bytes_ok _ Ht Hc) in H. injection H as <-.
  split; [exact Ht|]. split; [exact Hc | reflexivity].
Qed.

End Question.

(** X1.  For a question whose type and class lie in [0, 65535],
    [question_to_bytes] returns the name octets unchanged, whatever they
    are, followed by exactly four octets: the type and then the class, each
    high octet first. *)
Theorem question_to_bytes_layout (question : DNSQuestion) :
  u16 (type_ question) -> u16 (class_ question) ->
  exists b0 b1 b2 b3,
    question_to_bytes question = Ok (name question ++ [b0; b1; b2; b3])
    /\ be16 b0 b1 = type_ question
    /\ be16 b2 b3 = class_ question.
Proof.
  intros Ht Hc. rewrite (question_to_bytes_ok _ Ht Hc).
  do 4 eexists. split; [reflexivity|].
  split; now apply be16_octets.
Qed.

Lemma question_to_bytes_layout_witness :
  exists b0 b1 b2 b3,
    question_to_bytes (mkDNSQuestion [x03; x63; x6f; x6d; x00] 28 CLASS_IN)
    = Ok ([x03; x63; x6f; x6d; x00] ++ [b0; b1; b2; b3])
    /\ be16 b0 b1 = 28
    /\ be16 b2 b3 = CLASS_IN.
Proof.
  apply (question_to_bytes_layout
           (mkDNSQuestion [x03; x63; x6f; x6d; x00] 28 CLASS_IN));
    unfold u16, CLASS_IN; cbn; lia.
Defined.

(** X2.  A question whose type or class is below 0 or above 65535 makes
    [question_to_bytes] raise [struct.error], whatever the name. *)
Theorem question_out_of_range_raises (question : DNSQuestion) :
  ~ u16 (type_ question) \/ ~ u16 (class_ question) ->
  question_to_bytes question = Raise StructError.
Proof. apply question_to_bytes_raise. Qed.

Lemma question_out_of_range_raises_witness :
  question_to_bytes (mkDNSQuestion [x00] 65536 CLASS_IN) = Raise StructError.
Proof.
  apply (question_out_of_range_raises (mkDNSQuestion [x00] 65536 CLASS_IN)).
  left. unfold u16. cbn. lia.
Defined.

(** ** The whole query *)

(** X3.  When the name encodes and the record type is a 16-bit value,
    [build_query] returns, in this order: the id drawn from
    [randint(0, 65535)] high octet first, the ten octets
    01 00 00 01 00 00 00 00 00 00, the encoded name, the record type high
    octet first, and the class 00 01.  It draws from the generator once. *)
Theorem build_query_layout
  (R : RandomSource) (domain_name : str) (record_type : Z)
  (s : rng_state R) (encoded : bytes) :
  encode_dns_name domain_name = Ok encoded ->
  u16 record_type ->
  exists i0 i1 t0 t1,
    build_query R domain_name record_type s =
      (Ok ([i0; i1; x01; x00; x00; x01; x00; x00; x00; x00; x00; x00]
           ++ encoded ++ [t0; t1; x00; x01]),
       snd (randint R 0 65535 s))
    /\ be16 i0 i1 = fst (randint R 0 65535 s)
    /\ be16 t0 t1 = record_type.
Proof.
  intros E Ht.
  rewrite (build_query_name_ok R _ record_type s _ E).
  rewrite (header_to_bytes_ok _ (query_header_in_range R s)).
  rewrite question_to_bytes_ok
    by (cbn [type_ class_]; first [assumption | unfold u16, CLASS_IN; lia]).
  cbn [bind name type_ class_ id].
  do 4 eexists. split; [reflexivity|]. split.
  - apply be16_octets. exact (randint_range R 0 65535 s ltac:(lia)).
  - now apply be16_octets.
Qed.

Lemma build_query_layout_witness :
  exists i0 i1 t0 t1,
    build_query lcg (lit "example.com") TYPE_A 17 =
      (Ok ([i0; i1; x01; x00; x00; x01; x00; x00; x00; x00; x00; x00]
           ++ [x07; x65; x78; x61; x6d; x70; x6c; x65; x03; x63; x6f; x6d; x00]
           ++ [t0; t1; x00; x01]),
       snd (randint lcg 0 65535 17))
    /\ be16 i0 i1 = fst (randint lcg 0 65535 17)
    /\ be16 t0 t1 = TYPE_A.
Proof.
  apply (build_query_layout lcg (lit "example.com") TYPE_A 17).
  - vm_compute. reflexivity.
  - unfold u16, TYPE_A. lia.
Defined.

(** X4.  When the name encodes but the record type is outside [0, 65535],
    [build_query] raises [struct.error], and it has already drawn the id:
    the generator is left in its next state. *)
Theorem build_query_bad_type_raises
  (R : RandomSource) (domain_name : str) (record_type : Z)
  (s : rng_state R) (encoded : bytes) :
  encode_dns_name domain_name = Ok encoded ->
  ~ u16 record_type ->
  build_query R domain_name record_type s =
    (Raise StructError, snd (randint R 0 65535 s)).
Proof.
  intros E Ht.
  rewrite (build_query_name_ok R _ record_type s _ E).
  rewrite (header_to_bytes_ok _ (query_header_in_range R s)).
  rewrite question_to_bytes_raise by (left; exact Ht).
  reflexivity.
Qed.

Lemma build_query_bad_type_raises_witness :
  build_query lcg (lit "example.com") 65536 17 =
    (Raise StructError, snd (randint lcg 0 65535 17)).
Proof.
  apply (build_query_bad_type_raises lcg (lit "example.com") 65536 17
           [x07; x65; x78; x61; x6d; x70; x6c; x65; x03; x63; x6f; x6d; x00]).
  - vm_compute. reflexivity.
  - unfold u16. lia.
Defined.

(** X12.  Two queries for the same name and record type,
    from any two generators in any two states, agree from the third octet
    on; when the ids drawn are equal, the two queries are equal. *)
Theorem build_query_only_id_varies
  (R1 R2 : RandomSource) (domain_name : str) (record_type : Z)
  (s1 : rng_state R1) (s2 : rng_state R2) (q1 q2 : bytes) :
  fst (build_query R1 domain_name record_type s1) = Ok q1 ->
  fst (build_query R2 domain_name record_type s2) = Ok q2 ->
  skipn 2 q1 = skipn 2 q2
  /\ (fst (randint R1 0 65535 s1) = fst (randint R2 0 65535 s2) -> q1 = q2).
Proof.
  intros H1 H2.
  destruct (build_query_inv _ _ _ _ _ H1) as [e1 [t1 [E1 [Q1 ->]]]].
  destruct (build_query_inv _ _ _ _ _ H2) as [e2 [t2 [E2 [Q2 ->]]]].
  rewrite E1 in E2. injection E2 as <-.
  rewrite Q1 in Q2. injection Q2 as <-.
  split; [reflexivity|]. intros ->. reflexivity.
Qed.

Lemma build_query_only_id_varies_witness :
  skipn 2 [x00; x11; x01; x00; x00; x01; x00; x00; x00; x00; x00; x00;
           x03; x63; x6f; x6d; x00; x00; x01; x00; x01]
  = skipn 2 [x12; x34; x01; x00; x00; x01; x00; x00; x00; x00; x00; x00;
             x03; x63; x6f; x6d; x00; x00; x01; x00; x01]
  /\ (fst (randint lcg 0 65535 17) = fst (randint lcg 0 65535 0x1234) ->
      [x00; x11; x01; x00; x00; x01; x00; x00; x00; x00; x00; x00;
       x03; x63; x6f; x6d; x00; x00; x01; x00; x01]
      = [x12; x34; x01; x00; x00; x01; x00; x00; x00; x00; x00; x00;
         x03; x63; x6f; x6d; x00; x00; x01; x00; x01]).
Proof.
  apply (build_query_only_id_varies lcg lcg (lit "com") TYPE_A 17 0x1234);
    vm_compute; reflexivity.
Defined.

(** ** Names: errors, length, composition *)

(** X5.  An ASCII name with a dot-separated part of 256 octets or more makes
    [encode_dns_name] raise [ValueError]; [build_query] raises the same
    before drawing an id, the generator is untouched. *)
Theorem name_part_too_long_raises (domain_name : str) (raw : bytes) :
  encode_ascii domain_name = Ok raw ->
  Exists (fun part => 256 <= List.length part)%nat (split "."%byte raw) ->
  encode_dns_name domain_name = Raise ValueError
  /\ forall (R : RandomSource) (record_type : Z) (s : rng_state R),
       build_query R domain_name record_type s = (Raise ValueError, s).
Proof.
  intros Hraw Hlong.
  assert (encode_dns_name domain_name = Raise ValueError) as E.
  { unfold encode_dns_name. rewrite Hraw. cbn [bind].
    rewrite (encode_parts_raise _ Hlong). reflexivity. }
  split; [exact E|]. intros R record_type s.
  now apply build_query_name_raise.
Qed.

(** Witness: "www." followed by 256 letters "a". *)
Lemma name_part_too_long_raises_witness :
  encode_dns_name (lit "www." ++ repeat 97%N 256) = Raise ValueError
  /\ forall (R : RandomSource) (record_type : Z) (s : rng_state R),
       build_query R (lit "www." ++ repeat 97%N 256) record_type s
       = (Raise ValueError, s).
Proof.
  apply (name_part_too_long_raises (lit "www." ++ repeat 97%N 256)
           ([x77; x77; x77; x2e] ++ repeat x61 256)).
  - vm_compute. reflexivity.
  - change ([x77; x77; x77; x2e] ++ repeat x61 256)
      with ([x77; x77; x77] ++ "."%byte :: repeat x61 256).
    rewrite split_app_sep. apply Exists_app. right.
    rewrite split_no_sep
      by (intros Hin; apply repeat_spec in Hin; discriminate Hin).
    apply Exists_cons_hd. rewrite repeat_length. apply le_n.
Defined.

(** X6.  [encode_dns_name] raises [UnicodeEncodeError] exactly on names
    with a code point above 127, [ValueError] exactly on ASCII names with a
    part of 256 octets or more, and never [struct.error]; a name with both
    defects raises [UnicodeEncodeError]. *)
Theorem encode_dns_name_errors (domain_name : str) :
  (encode_dns_name domain_name = Raise UnicodeEncodeError
   <-> Exists (fun c => 128 <= c)%N domain_name)
  /\ (encode_dns_name domain_name = Raise ValueError
      <-> exists raw,
            encode_ascii domain_name = Ok raw
            /\ Exists (fun part => 256 <= List.length part)%nat
                 (split "."%byte raw))
  /\ encode_dns_name domain_name <> Raise StructError.
Proof.
  unfold encode_dns_name.
  destruct (encode_ascii domain_name) as [raw|e] eqn:Ea; cbn [bind].
  - destruct (encode_ascii_inv _ _ Ea) as [Hascii _].
    assert (~ Exists (fun c => 128 <= c)%N domain_name) as Hno.
    { intros Hex. apply Exists_exists in Hex. destruct Hex as [c [Hin Hc]].
      rewrite Forall_forall in Hascii. specialize (Hascii c Hin). lia. }
    destruct (encode_parts [] (split "."%byte raw)) as [encoded|e] eqn:Ep;
      cbn [bind].
    + destruct (encode_parts_inv _ _ _ Ep) as [Hparts _].
      split; [split; [discriminate | intros H; now apply Hno in H]|].
      split; [|discriminate].
      split; [discriminate|]. intros [raw' [Hraw' Hlong]].
      injection Hraw' as <-.
      rewrite (encode_parts_raise _ Hlong) in Ep. discriminate.
    + destruct (encode_parts_raise_inv _ _ _ Ep) as [-> Hlong].
      split; [split; [discriminate | intros H; now apply Hno in H]|].
      split; [|discriminate].
      split; [intros _; now exists raw | reflexivity].
  - destruct (encode_ascii_raise_inv _ _ Ea) as [-> Hex].
    split; [split; [intros _; exact Hex | reflexivity]|].
    split; [|discriminate].
    split; [discriminate|]. intros [raw [Hraw _]]. discriminate.
Qed.

(** X7.  Whenever [encode_dns_name] returns, its output is exactly two
    octets longer than the name has characters: each dot is replaced by a
    length octet, one length octet is added in front and the terminator at
    the end. *)
Theorem encode_dns_name_length (domain_name : str) (encoded : bytes) :
  encode_dns_name domain_name = Ok encoded ->
  len encoded = len domain_name + 2.
Proof. apply encoded_name_length. Qed.

Lemma encode_dns_name_length_witness :
  len [x06; x67; x6f; x6f; x67; x6c; x65; x03; x63; x6f; x6d; x00]
  = len (lit "google.com") + 2.
Proof.
  apply (encode_dns_name_length (lit "google.com")).
  vm_compute. reflexivity.
Defined.

(** X8.  Whenever [build_query] returns, the query is 18 octets longer than
    the name has characters: 12 for the header, 2 more than the name for
    its encoding, 4 for type and class. *)
Theorem build_query_length_of_name
  (R : RandomSource) (domain_name : str) (record_type : Z)
  (s : rng_state R) (query : bytes) :
  fst (build_query R domain_name record_type s) = Ok query ->
  len query = len domain_name + 18.
Proof.
  intros H.
  destruct (build_query_inv _ _ _ _ _ H) as [encoded [tail [E [Q ->]]]].
  destruct (question_to_bytes_inv _ _ Q) as [_ [_ ->]]. cbn [name].
  pose proof (encoded_name_length _ _ E) as Hlen. unfold len in *.
  cbn [app List.length]. rewrite length_app. cbn [List.length]. lia.
Qed.

Lemma build_query_length_of_name_witness :
  len [x00; x11; x01; x00; x00; x01; x00; x00; x00; x00; x00; x00;
       x07; x65; x78; x61; x6d; x70; x6c; x65; x03; x63; x6f; x6d; x00;
       x00; x01; x00; x01]
  = len (lit "example.com") + 18.
Proof.
  apply (build_query_length_of_name lcg (lit "example.com") TYPE_A 17).
  vm_compute. reflexivity.
Defined.

(** X9.  An ASCII name without a dot, of at most 255 characters, is encoded
    as a single label: its length, its octets, the terminator. *)
Theorem encode_single_label (domain_name : str) (raw : bytes) :
  encode_ascii domain_name = Ok raw ->
  ~ In 46%N domain_name ->
  (List.length domain_name <= 255)%nat ->
  encode_dns_name domain_name = Ok (octet (len domain_name) :: raw ++ [x00]).
Proof.
  intros Hraw Hnodot Hlen.
  destruct (encode_ascii_inv _ _ Hraw) as [Hascii Hmap].
  assert (~ In "."%byte raw) as Hnot.
  { rewrite Hmap. intros Hin. apply in_map_iff in Hin.
    destruct Hin as [c [Hc Hin]]. apply Hnodot.
    rewrite Forall_forall in Hascii.
    rewrite (octet_ascii_inj c 46 (Hascii c Hin) ltac:(lia) Hc) in Hin.
    exact Hin. }
  pose proof (encode_ascii_length _ _ Hraw) as Hl.
  rewrite (encode_dns_name_ok _ _ Hraw);
    rewrite (split_no_sep _ _ Hnot).
  - cbn [framed flat_map]. rewrite app_nil_r. unfold len. rewrite Hl.
    reflexivity.
  - apply Forall_cons; [lia | apply Forall_nil].
Qed.

Lemma encode_single_label_witness :
  encode_dns_name (lit "localhost") =
    Ok (octet (len (lit "localhost"))
        :: [x6c; x6f; x63; x61; x6c; x68; x6f; x73; x74] ++ [x00]).
Proof.
  apply (encode_single_label (lit "localhost")).
  - vm_compute. reflexivity.
  - vm_compute. intros H.
    repeat (destruct H as [H|H]; [discriminate H|]). exact H.
  - vm_compute. repeat constructor.
Defined.

(** X10.  Encoding composes over the dot: the encoding of [a + "." + b] is
    the encoding of [a] without its terminator, followed by the encoding
    of [b]. *)
Theorem encode_dns_name_dot_composition (a b : str) (ea eb : bytes) :
  encode_dns_name a = Ok ea ->
  encode_dns_name b = Ok eb ->
  exists body,
    ea = body ++ [x00]
    /\ encode_dns_name (a ++ lit "." ++ b) = Ok (body ++ eb).
Proof.
  intros Ha Hb.
  destruct (encode_dns_name_inv _ _ Ha) as [ra [Era [Fa ->]]].
  destruct (encode_dns_name_inv _ _ Hb) as [rb [Erb [Fb ->]]].
  exists (framed (split "."%byte ra)). split; [reflexivity|].
  assert (encode_ascii (a ++ lit "." ++ b) = Ok (ra ++ "."%byte :: rb)) as E.
  { rewrite encode_ascii_app, Era. cbn [bind].
    change (lit "." ++ b) with (46%N :: b). cbn [encode_ascii].
    change (46 <? 128)%N with true. cbn iota. rewrite Erb. reflexivity. }
  rewrite (encode_dns_name_ok _ _ E); rewrite split_app_sep.
  - rewrite framed_app, <- app_assoc. reflexivity.
  - apply Forall_app. now split.
Qed.

Lemma encode_dns_name_dot_composition_witness :
  exists body,
    [x03; x77; x77; x77; x00] = body ++ [x00]
    /\ encode_dns_name (lit "www" ++ lit "." ++ lit "example.com") =
       Ok (body ++ [x07; x65; x78; x61; x6d; x70; x6c; x65;
                    x03; x63; x6f; x6d; x00]).
Proof.
  apply (encode_dns_name_dot_composition (lit "www") (lit "example.com"));
    vm_compute; reflexivity.
Defined.

(** X11.  [encode_dns_name] never gives the same octets for two different
    names: names with equal encodings are equal. *)
Theorem encode_dns_name_injective (d1 d2 : str) (encoded : bytes) :
  encode_dns_name d1 = Ok encoded ->
  encode_dns_name d2 = Ok encoded ->
  d1 = d2.
Proof.
  intros H1 H2.
  destruct (encode_dns_name_inv _ _ H1) as [r1 [E1 [F1 ->]]].
  destruct (encode_dns_name_inv _ _ H2) as [r2 [E2 [F2 Heq]]].
  apply app_inv_tail in Heq.
  apply (framed_inj _ F1 _ F2) in Heq.
  apply split_inj in Heq. subst r2.
  exact (encode_ascii_inj _ _ _ E1 E2).
Qed.

Lemma encode_dns_name_injective_witness :
  lit "a.b" = [97%N; 46%N; 98%N].
Proof.
  apply (encode_dns_name_injective (lit "a.b") [97%N; 46%N; 98%N]
           [x01; x61; x01; x62; x00]);
    vm_compute; reflexivity.
Defined.

(** X13.  In a query for an ASCII name whose labels are each between 1 and
    255 octets long, reading the name back from offset 12 gives exactly the
    labels and leaves the four octets of type and class. *)
Theorem build_query_name_readable
  (R : RandomSource) (domain_name : str) (record_type : Z)
  (s : rng_state R) (raw : bytes) :
  encode_ascii domain_name = Ok raw ->
  Forall (fun label => 1 <= List.length label <= 255)%nat (split "."%byte raw) ->
  u16 record_type ->
  exists query t0 t1,
    fst (build_query R domain_name record_type s) = Ok query
    /\ decode_dns_name (skipn 12 query) =
       Some (split "."%byte raw, [t0; t1; x00; x01])
    /\ be16 t0 t1 = record_type.
Proof.
  intros Hraw Hlabels Ht.
  assert (Forall (fun part => List.length part <= 255)%nat (split "."%byte raw))
    as H255 by (eapply Forall_impl; [|exact Hlabels]; cbn; intros; lia).
  pose proof (encode_dns_name_ok _ _ Hraw H255) as E.
  rewrite (build_query_name_ok R _ record_type s _ E).
  rewrite (header_to_bytes_ok _ (query_header_in_range R s)).
  rewrite question_to_bytes_ok
    by (cbn [type_ class_]; first [assumption | unfold u16, CLASS_IN; lia]).
  cbn [bind name type_ class_ fst].
  do 3 eexists. split; [reflexivity|]. split; [|now apply be16_octets].
  cbn [app skipn]. rewrite <- app_assoc. cbn [app].
  unfold decode_dns_name. apply read_labels_framed; [exact Hlabels|].
  rewrite length_app. cbn [List.length].
  pose proof (framed_length (split "."%byte raw)) as Hfl.
  apply Nat.lt_le_trans with (S (List.length (framed (split "."%byte raw)))).
  - apply Nat.lt_succ_r. exact Hfl.
  - rewrite Nat.add_succ_r. apply le_n_S, Nat.le_add_r.
Qed.

Lemma build_query_name_readable_witness :
  exists query t0 t1,
    fst (build_query lcg (lit "www.example.com") TYPE_A 17) = Ok query
    /\ decode_dns_name (skipn 12 query) =
       Some (split "."%byte
               [x77; x77; x77; x2e; x65; x78; x61; x6d; x70; x6c; x65; x2e;
                x63; x6f; x6d],
             [t0; t1; x00; x01])
    /\ be16 t0 t1 = TYPE_A.
Proof.
  apply (build_query_name_readable lcg (lit "www.example.com") TYPE_A 17).
  - vm_compute. reflexivity.
  - vm_compute. repeat constructor.
  - unfold u16, TYPE_A. lia.
Defined.
